(** * bottomhalf.c: top and bottom half interrupt handling

    A shallow embedding of [examples/bottomhalf.c]: two buttons switch
    an LED on and off from an interrupt handler, the slow part of the
    handling is pushed to a work item.

    The module talks to three kernel services (the GPIO line provider,
    the interrupt provider and the work queue).  They are modelled by a
    small mock: a [world] that records which lines are held, how they
    are configured, which interrupts are registered, and the sequence of
    service calls made so far.  The C code is a sequence of calls
    threading that hidden state, which is written here in a state
    monad. *)

From stdpp Require Import gmap strings list vector.
From Stdlib Require Import ZArith.

Local Open Scope Z_scope.

(** ** Constants of the kernel headers *)

(** <linux/gpio.h> *)
Definition GPIOF_DIR_OUT : Z := Z.shiftl 0 0.
Definition GPIOF_DIR_IN : Z := Z.shiftl 1 0.
Definition GPIOF_INIT_LOW : Z := Z.shiftl 0 1.
Definition GPIOF_INIT_HIGH : Z := Z.shiftl 1 1.
Definition GPIOF_IN : Z := GPIOF_DIR_IN.
Definition GPIOF_OUT_INIT_LOW : Z := Z.lor GPIOF_DIR_OUT GPIOF_INIT_LOW.

(** <linux/interrupt.h> *)
Definition IRQF_TRIGGER_RISING : Z := 1.
Definition IRQF_TRIGGER_FALLING : Z := 2.

(** <linux/irqreturn.h> *)
Inductive irqreturn_t := IRQ_NONE | IRQ_HANDLED | IRQ_WAKE_THREAD.

(** <uapi/asm-generic/errno-base.h> *)
Definition EBUSY : Z := 16.

(** [struct gpio] of <linux/gpio.h> *)
Record struct_gpio := { gpio : Z; flags : Z; label : string }.

(** ** The mock of the kernel services *)

Inductive gpio_dir := DIR_IN | DIR_OUT.

(** A registered interrupt.  The handler is always [button_isr] and the
    cookie always NULL, so only the flags and the name are kept. *)
Record irqaction := { ia_flags : Z; ia_name : string }.

(** One service call. *)
Inductive event :=
| EvPrintk (fmt : string)
| EvGpioRequest (line : Z)
| EvGpioFree (line : Z)
| EvGpioDirection (line : Z) (d : gpio_dir)
| EvGpioGet (line : Z)
| EvGpioSet (line : Z) (value : Z)
| EvGpioToIrq (line : Z)
| EvRequestIrq (irq : Z) (trigger : Z)
| EvFreeIrq (irq : Z)
| EvScheduleWork
| EvMsleep (msecs : Z).

(** What the hardware answers: the status a request of a free line
    gets, the interrupt number (or negative errno) a line maps to, and
    the status the registration of a free interrupt gets. *)
Record platform := {
  gpio_request_rc : Z → Z;
  gpio_to_irq_rc : Z → Z;
  request_irq_rc : Z → Z;
}.

(** The mutable state: the provider's tables, the module's global
    [button_irqs], and the calls made so far (oldest first). *)
Record world := {
  gpio_requested : gset Z;
  gpio_direction : gmap Z gpio_dir;
  gpio_level : gmap Z bool;
  irq_actions : gmap Z irqaction;
  work_pending : bool;
  button_irqs : vec Z 2;
  trace : list event;
}.

Definition set_gpio_requested (f : gset Z → gset Z) (w : world) : world :=
  {| gpio_requested := f (gpio_requested w); gpio_direction := gpio_direction w;
     gpio_level := gpio_level w; irq_actions := irq_actions w;
     work_pending := work_pending w; button_irqs := button_irqs w;
     trace := trace w |}.

Definition set_gpio_direction (f : gmap Z gpio_dir → gmap Z gpio_dir) (w : world) : world :=
  {| gpio_requested := gpio_requested w; gpio_direction := f (gpio_direction w);
     gpio_level := gpio_level w; irq_actions := irq_actions w;
     work_pending := work_pending w; button_irqs := button_irqs w;
     trace := trace w |}.

Definition set_gpio_level (f : gmap Z bool → gmap Z bool) (w : world) : world :=
  {| gpio_requested := gpio_requested w; gpio_direction := gpio_direction w;
     gpio_level := f (gpio_level w); irq_actions := irq_actions w;
     work_pending := work_pending w; button_irqs := button_irqs w;
     trace := trace w |}.

Definition set_irq_actions (f : gmap Z irqaction → gmap Z irqaction) (w : world) : world :=
  {| gpio_requested := gpio_requested w; gpio_direction := gpio_direction w;
     gpio_level := gpio_level w; irq_actions := f (irq_actions w);
     work_pending := work_pending w; button_irqs := button_irqs w;
     trace := trace w |}.

Definition set_work_pending (b : bool) (w : world) : world :=
  {| gpio_requested := gpio_requested w; gpio_direction := gpio_direction w;
     gpio_level := gpio_level w; irq_actions := irq_actions w;
     work_pending := b; button_irqs := button_irqs w;
     trace := trace w |}.

Definition set_button_irqs (f : vec Z 2 → vec Z 2) (w : world) : world :=
  {| gpio_requested := gpio_requested w; gpio_direction := gpio_direction w;
     gpio_level := gpio_level w; irq_actions := irq_actions w;
     work_pending := work_pending w; button_irqs := f (button_irqs w);
     trace := trace w |}.

Definition set_trace (f : list event → list event) (w : world) : world :=
  {| gpio_requested := gpio_requested w; gpio_direction := gpio_direction w;
     gpio_level := gpio_level w; irq_actions := irq_actions w;
     work_pending := work_pending w; button_irqs := button_irqs w;
     trace := f (trace w) |}.

(** *** The state monad of kernel calls *)

Definition M (A : Type) : Type := world → A * world.

Definition pure {A : Type} (a : A) : M A := λ w, (a, w).
Definition bind {A B : Type} (m : M A) (f : A → M B) : M B :=
  λ w, let '(a, w') := m w in f a w'.

Declare Scope M_scope.
Delimit Scope M_scope with M.
Bind Scope M_scope with M.
Notation "x <- m ;; k" := (bind m (λ x, k))
  (at level 100, m at next level, k at level 200, right associativity) : M_scope.
Notation "m ;; k" := (bind m (λ _, k))
  (at level 100, k at level 200, right associativity) : M_scope.
Local Open Scope M_scope.

(** A primitive step on the world. *)
Definition step {A : Type} (f : world → A * world) : M A := f.

Definition emit (e : event) : M unit :=
  step (λ w, (tt, set_trace (λ t, t ++ [e]) w)).

(** The level of a line; a line nobody drove yet reads low. *)
Definition level_of (w : world) (line : Z) : bool :=
  default false (gpio_level w !! line).

(** Truth of a C integer. *)
Definition truthy (v : Z) : bool := negb (v =? 0).

Section Services.
Variable hw : platform.

(** Modelled from the spec: the line provider's acquire ([gpio_request]
    of <linux/gpio.h>, not under src/).  Non-reentrant per line: a
    held line answers -EBUSY.  It receives the line number and a
    label only: requesting a line marks it as in use and does not
    configure it. *)
Definition gpio_request (line : Z) (lbl : string) : M Z :=
  emit (EvGpioRequest line);;
  step (λ w, if decide (line ∈ gpio_requested w) then (- EBUSY, w)
       else if gpio_request_rc hw line =? 0
            then (0, set_gpio_requested (λ s, {[line]} ∪ s) w)
            else (gpio_request_rc hw line, w)).

(** Modelled from the spec: the line provider's release ([gpio_free],
    not under src/). *)
Definition gpio_free (line : Z) : M unit :=
  emit (EvGpioFree line);;
  step (λ w, (tt, set_gpio_requested (λ s, s ∖ {[line]}) w)).

(** Modelled from the spec: [gpio_direction_input] and
    [gpio_direction_output] (not under src/), which the array
    acquisition calls according to the flags of each entry. *)
Definition gpio_direction_input (line : Z) : M Z :=
  emit (EvGpioDirection line DIR_IN);;
  step (λ w, (0, set_gpio_direction (<[line := DIR_IN]>) w)).

Definition gpio_direction_output (line : Z) (value : Z) : M Z :=
  emit (EvGpioDirection line DIR_OUT);;
  step (λ w, (0, set_gpio_level (<[line := truthy value]>)
             (set_gpio_direction (<[line := DIR_OUT]>) w))).

(** Modelled from the spec: [gpio_request_one] (not under src/):
    acquire, then configure by the flags; release again if the
    configuration fails. *)
Definition gpio_request_one (line : Z) (fl : Z) (lbl : string) : M Z :=
  err <- gpio_request line lbl;;
  if truthy err then pure err
  else
    err <- (if truthy (Z.land fl GPIOF_DIR_IN)
           then gpio_direction_input line
           else gpio_direction_output line
                  (if truthy (Z.land fl GPIOF_INIT_HIGH) then 1 else 0));;
    if truthy err then gpio_free line;; pure err
    else pure 0.

(** Modelled from the spec: the release of a LineSet
    ([gpio_free_array], not under src/): the first [num] entries, front
    to back. *)
Fixpoint gpio_free_array (array : list struct_gpio) (num : nat) : M unit :=
  match num, array with
  | S num', g :: array' => gpio_free (gpio g);; gpio_free_array array' num'
  | _, _ => pure tt
  end.

(** Modelled from the spec: the all-or-nothing acquisition of a
    LineSet ([gpio_request_array], not under src/).  [done] holds the
    entries acquired so far, the latest first; on a failure they are
    released in that order. *)
Fixpoint gpio_request_array_from (done : list struct_gpio)
    (array : list struct_gpio) (num : nat) : M Z :=
  match num, array with
  | S num', g :: array' =>
      err <- gpio_request_one (gpio g) (flags g) (label g);;
      if truthy err
      then gpio_free_array done (length done);; pure err
      else gpio_request_array_from (g :: done) array' num'
  | _, _ => pure 0
  end.

Definition gpio_request_array (array : list struct_gpio) (num : nat) : M Z :=
  gpio_request_array_from [] array num.

(** Modelled from the spec: the line provider's read and write
    ([gpio_get_value], [gpio_set_value], not under src/). *)
Definition gpio_get_value (line : Z) : M Z :=
  emit (EvGpioGet line);;
  step (λ w, (Z.b2z (level_of w line), w)).

Definition gpio_set_value (line : Z) (value : Z) : M unit :=
  emit (EvGpioSet line value);;
  step (λ w, (tt, set_gpio_level (<[line := truthy value]>) w)).

(** Modelled from the spec: the interrupt provider ([gpio_to_irq],
    [request_irq], [free_irq], not under src/).  No registration here
    is shared, so a second registration of one interrupt answers
    -EBUSY. *)
Definition gpio_to_irq (line : Z) : M Z :=
  emit (EvGpioToIrq line);;
  step (λ w, (gpio_to_irq_rc hw line, w)).

Definition request_irq (irq : Z) (trigger : Z) (name : string) : M Z :=
  emit (EvRequestIrq irq trigger);;
  step (λ w, if decide (is_Some (irq_actions w !! irq)) then (- EBUSY, w)
       else if request_irq_rc hw irq =? 0
            then (0, set_irq_actions
                       (<[irq := {| ia_flags := trigger; ia_name := name |}]>) w)
            else (request_irq_rc hw irq, w)).

Definition free_irq (irq : Z) : M unit :=
  emit (EvFreeIrq irq);;
  step (λ w, (tt, set_irq_actions (delete irq) w)).

(** Modelled from the spec: the deferred-work scheduler's submit
    ([schedule_work], not under src/); a unit that is already pending
    is not queued twice. *)
Definition schedule_work : M bool :=
  emit EvScheduleWork;;
  step (λ w, (negb (work_pending w), set_work_pending true w)).

(** Modelled from the spec: the blocking delay ([msleep]) and the log
    ([pr_info], [pr_err]; only the format is recorded). *)
Definition msleep (msecs : Z) : M unit := emit (EvMsleep msecs).
Definition pr_info (fmt : string) : M unit := emit (EvPrintk fmt).
Definition pr_err (fmt : string) : M unit := emit (EvPrintk fmt).
End Services.

(** ** The module *)

(** [static int button_irqs[] = { -1, -1 };] is the [button_irqs] field
    of the world; these read and write one cell. *)
Definition get_button_irq (i : fin 2) : M Z :=
  λ w, (button_irqs w !!! i, w).
Definition put_button_irq (i : fin 2) (v : Z) : M unit :=
  λ w, (tt, set_button_irqs (vinsert i v) w).

Definition leds : vec struct_gpio 1 :=
  [# {| gpio := 4; flags := GPIOF_OUT_INIT_LOW; label := "LED 1" |} ].

Definition buttons : vec struct_gpio 2 :=
  [# {| gpio := 17; flags := GPIOF_IN; label := "LED 1 ON BUTTON" |};
     {| gpio := 18; flags := GPIOF_IN; label := "LED 1 OFF BUTTON" |} ].

Definition ARRAY_SIZE {A n} (a : vec A n) : nat := length (vec_to_list a).

(** Workqueue function containing some non-trivial amount of processing *)
Definition bottomhalf_work_fn : M unit :=
  pr_info "Bottom half workqueue starts\n";;
  msleep 500;;
  pr_info "Bottom half workqueue ends\n".

(** [for (i = 0; i < ARRAY_SIZE(a); i++) body(a[i]);] *)
Fixpoint for_each {A : Type} (a : list A) (body : A → M unit) : M unit :=
  match a with
  | [] => pure tt
  | x :: a' => body x;; for_each a' body
  end.

(** C's [a && b] with an effectful right operand: [b] runs only when
    [a] holds. *)
Definition and_then (a : bool) (b : M bool) : M bool :=
  if a then b else pure false.

(** interrupt function triggered when a button is pressed *)
Definition button_isr (irq : Z) : M irqreturn_t :=
  irq0 <- get_button_irq 0%fin;;
  c <- and_then (irq =? irq0)
        (v <- gpio_get_value (gpio (leds !!! 0%fin));; pure (negb (truthy v)));;
  (if c then gpio_set_value (gpio (leds !!! 0%fin)) 1
   else
     irq1 <- get_button_irq 1%fin;;
     c <- and_then (irq =? irq1)
           (v <- gpio_get_value (gpio (leds !!! 0%fin));; pure (truthy v));;
     if c then gpio_set_value (gpio (leds !!! 0%fin)) 0
     else pure tt);;
  schedule_work;;
  pure IRQ_HANDLED.

Section Bottomhalf.
Variable hw : platform.

(** [#ifdef NO_GPIO_REQUEST_ARRAY]: set for kernels from 6.10 on. *)
Variable NO_GPIO_REQUEST_ARRAY : bool.

(** The cleanup labels of [bottomhalf_init]; each falls through to
    the next.  [fail4] exists only under [NO_GPIO_REQUEST_ARRAY]. *)
Definition fail1 (ret : Z) : M Z :=
  (if NO_GPIO_REQUEST_ARRAY
   then gpio_free (gpio (leds !!! 0%fin))
   else gpio_free_array leds (ARRAY_SIZE leds));;
  pure ret.

Definition fail2 (ret : Z) : M Z :=
  (if NO_GPIO_REQUEST_ARRAY
   then gpio_free (gpio (buttons !!! 0%fin))
   else gpio_free_array buttons (ARRAY_SIZE leds));;
  fail1 ret.

Definition fail3 (ret : Z) : M Z :=
  (if NO_GPIO_REQUEST_ARRAY
   then gpio_free (gpio (buttons !!! 1%fin))
   else irq0 <- get_button_irq 0%fin;; free_irq irq0);;
  fail2 ret.

Definition fail4 (ret : Z) : M Z :=
  (irq0 <- get_button_irq 0%fin;; free_irq irq0);;
  fail3 ret.

(** [bottomhalf_init] from the first [gpio_to_irq] on (both variants
    of the button acquisition continue here). *)
Definition bottomhalf_init_irqs : M Z :=
  (v <- gpio_get_value (gpio (buttons !!! 0%fin));;
   pr_info "Current button1 value: %d\n");;
  ret <- gpio_to_irq hw (gpio (buttons !!! 0%fin));;
  if ret <? 0 then
    pr_err "Unable to request IRQ: %d\n";;
    if NO_GPIO_REQUEST_ARRAY then fail3 ret else fail2 ret
  else
  put_button_irq 0%fin ret;;
  pr_info "Successfully requested BUTTON1 IRQ # %d\n";;
  irq0 <- get_button_irq 0%fin;;
  ret <- request_irq hw irq0
          (Z.lor IRQF_TRIGGER_RISING IRQF_TRIGGER_FALLING) "gpiomod#button1";;
  if truthy ret then
    pr_err "Unable to request IRQ: %d\n";;
    if NO_GPIO_REQUEST_ARRAY then fail3 ret else fail2 ret
  else
  ret <- gpio_to_irq hw (gpio (buttons !!! 1%fin));;
  if ret <? 0 then
    pr_err "Unable to request IRQ: %d\n";;
    if NO_GPIO_REQUEST_ARRAY then fail3 ret else fail2 ret
  else
  put_button_irq 1%fin ret;;
  pr_info "Successfully requested BUTTON2 IRQ # %d\n";;
  irq1 <- get_button_irq 1%fin;;
  ret <- request_irq hw irq1
          (Z.lor IRQF_TRIGGER_RISING IRQF_TRIGGER_FALLING) "gpiomod#button2";;
  if truthy ret then
    pr_err "Unable to request IRQ: %d\n";;
    if NO_GPIO_REQUEST_ARRAY then fail4 ret else fail3 ret
  else
  pure 0.

Definition bottomhalf_init : M Z :=
  pr_info "%s\n";;
  (* register LED gpios *)
  ret <- (if NO_GPIO_REQUEST_ARRAY
         then gpio_request hw (gpio (leds !!! 0%fin)) (label (leds !!! 0%fin))
         else gpio_request_array hw leds (ARRAY_SIZE leds));;
  if truthy ret then
    pr_err "Unable to request GPIOs for LEDs: %d\n";;
    pure ret
  else
  (* register BUTTON gpios *)
  if NO_GPIO_REQUEST_ARRAY then
    ret <- gpio_request hw (gpio (buttons !!! 0%fin)) (label (buttons !!! 0%fin));;
    if truthy ret then
      pr_err "Unable to request GPIOs for BUTTONs: %d\n";;
      fail1 ret
    else
    ret <- gpio_request hw (gpio (buttons !!! 1%fin)) (label (buttons !!! 1%fin));;
    if truthy ret then
      pr_err "Unable to request GPIOs for BUTTONs: %d\n";;
      fail2 ret
    else
    bottomhalf_init_irqs
  else
    ret <- gpio_request_array hw buttons (ARRAY_SIZE buttons);;
    if truthy ret then
      pr_err "Unable to request GPIOs for BUTTONs: %d\n";;
      fail1 ret
    else
    bottomhalf_init_irqs.

Definition bottomhalf_exit : M unit :=
  pr_info "%s\n";;
  (* free irqs *)
  (irq0 <- get_button_irq 0%fin;; free_irq irq0);;
  (irq1 <- get_button_irq 1%fin;; free_irq irq1);;
  (* turn all LEDs off *)
  (if NO_GPIO_REQUEST_ARRAY
   then gpio_set_value (gpio (leds !!! 0%fin)) 0
   else for_each (vec_to_list leds) (λ g, gpio_set_value (gpio g) 0));;
  (* unregister *)
  (if NO_GPIO_REQUEST_ARRAY
   then
     gpio_free (gpio (leds !!! 0%fin));;
     gpio_free (gpio (buttons !!! 0%fin));;
     gpio_free (gpio (buttons !!! 1%fin))
   else
     gpio_free_array leds (ARRAY_SIZE leds);;
     gpio_free_array buttons (ARRAY_SIZE buttons)).
End Bottomhalf.


(** ** Observations *)

(** The LED line, [leds[0].gpio]. *)
Definition led : Z := gpio (leds !!! 0%fin).

(** The LED is Active when its line reads high. *)
Definition led_active (w : world) : bool := level_of w led.

(** The calls made between two worlds of one run. *)
Definition new_events (w w' : world) : list event :=
  drop (length (trace w)) (trace w').

Definition is_gpio_write (e : event) : bool :=
  match e with EvGpioSet _ _ => true | _ => false end.

Definition is_schedule (e : event) : bool :=
  match e with EvScheduleWork => true | _ => false end.

(** The line writes among some calls, and the number of submissions of
    the work unit. *)
Definition gpio_writes (evs : list event) : list event :=
  List.filter is_gpio_write evs.
Definition submissions (evs : list event) : nat :=
  length (List.filter is_schedule evs).

(** The calls that may sleep, block or allocate in the calling context:
    acquiring, configuring and releasing a line, registering and
    releasing an interrupt, and the delay.  Reading and writing a line,
    mapping a line to its interrupt, submitting work and logging are
    safe in interrupt context. *)
Definition may_block (e : event) : bool :=
  match e with
  | EvGpioRequest _ | EvGpioFree _ | EvGpioDirection _ _
  | EvRequestIrq _ _ | EvFreeIrq _ | EvMsleep _ => true
  | EvPrintk _ | EvGpioGet _ | EvGpioSet _ _ | EvGpioToIrq _
  | EvScheduleWork => false
  end.

(** The two guards of the handler. *)
Definition isr_on (irq : Z) (w : world) : bool :=
  (irq =? button_irqs w !!! 0%fin) && negb (level_of w led).
Definition isr_off (irq : Z) (w : world) : bool :=
  negb (isr_on irq w) && (irq =? button_irqs w !!! 1%fin) && level_of w led.

(** The calls of one run of the handler: a guard reads the line only
    when its token comparison holds. *)
Definition isr_events (irq : Z) (w : world) : list event :=
  (if irq =? button_irqs w !!! 0%fin then [EvGpioGet led] else []) ++
  (if isr_on irq w then [EvGpioSet led 1]
   else (if irq =? button_irqs w !!! 1%fin then [EvGpioGet led] else []) ++
        (if isr_off irq w then [EvGpioSet led 0] else [])) ++
  [EvScheduleWork].

(** The two logical events, and their dispatch: the platform calls the
    handler with the token of the binding that fired. *)
Inductive button_event := ON | OFF.

Definition binding (e : button_event) : fin 2 :=
  match e with ON => 0%fin | OFF => 1%fin end.

Definition fire (e : button_event) : M irqreturn_t :=
  irq <- get_button_irq (binding e);;
  button_isr irq.

Fixpoint run_events (evs : list button_event) (w : world) : world :=
  match evs with
  | [] => w
  | e :: evs' => run_events evs' (fire e w).2
  end.

(** The events of a sequence whose handling changed the LED. *)
Fixpoint effective_events (evs : list button_event) (w : world)
    : list button_event :=
  match evs with
  | [] => []
  | e :: evs' =>
      let w' := (fire e w).2 in
      (if bool_decide (led_active w' = led_active w) then [] else [e])
      ++ effective_events evs' w'
  end.

(** The handler called with a sequence of arbitrary tokens. *)
Fixpoint run_isr (irqs : list Z) (w : world) : world :=
  match irqs with
  | [] => w
  | irq :: irqs' => run_isr irqs' (button_isr irq w).2
  end.

Definition both_edges : Z := Z.lor IRQF_TRIGGER_RISING IRQF_TRIGGER_FALLING.

(** *** Concrete platforms and worlds *)

Definition ENXIO : Z := 6.
Definition EINVAL : Z := 22.

Definition fails_at (k step : nat) (x y : Z) : bool :=
  (k =? step)%nat && (x =? y).

(** A platform on which line [g] maps to interrupt [g + 160] and the
    [k]-th acquisition of [bottomhalf_init] fails: 1 the LED line, 2 and
    3 the button lines, 4 and 6 the mapping of a button line to its
    interrupt, 5 and 7 the registration of the handler.  With [k = 0]
    nothing fails. *)
Definition hw_fail (k : nat) : platform :=
  {| gpio_request_rc := λ g,
       if fails_at k 1 g 4 || fails_at k 2 g 17 || fails_at k 3 g 18
       then - EINVAL else 0;
     gpio_to_irq_rc := λ g,
       if fails_at k 4 g 17 || fails_at k 6 g 18 then - ENXIO else g + 160;
     request_irq_rc := λ i,
       if fails_at k 5 i 177 || fails_at k 7 i 178 then - EINVAL else 0 |}.

Definition hw_ok : platform := hw_fail 0.

(** The world when the module is loaded: nothing held, nothing
    registered, no line configured. *)
Definition boot : world :=
  {| gpio_requested := ∅; gpio_direction := ∅; gpio_level := ∅;
     irq_actions := ∅; work_pending := false;
     button_irqs := [# -1; -1]; trace := [] |}.

(** The same, with line 4 left high by whoever drove it before. *)
Definition boot_led_high : world :=
  set_gpio_level (<[4 := true]>) boot.

(** What a run left behind: the status, the lines still held and the
    interrupts still registered. *)
Definition leftover (r : Z * world) : Z * list Z * list Z :=
  (r.1, elements (gpio_requested r.2), (map_to_list (irq_actions r.2)).*1).

(** Whether, in a sequence of calls, interrupt [irq] is released before
    the first release of [line] (true also when [line] is never
    released). *)
Fixpoint irq_freed_before_line (irq line : Z) (evs : list event) : bool :=
  match evs with
  | [] => true
  | EvFreeIrq i :: evs' =>
      if i =? irq then true else irq_freed_before_line irq line evs'
  | EvGpioFree g :: evs' =>
      if g =? line then false else irq_freed_before_line irq line evs'
  | _ :: evs' => irq_freed_before_line irq line evs'
  end.

(** The reading of the shared-token case under which the off branch is
    never taken when the token equals both stored tokens. *)
Definition off_never_taken_on_shared_token : Prop :=
  ∀ (irq : Z) (w : world),
    irq = button_irqs w !!! 0%fin → irq = button_irqs w !!! 1%fin →
    EvGpioSet led 0 ∉ new_events w (button_isr irq w).2.

(** The answers and the start world under which every acquisition of
    [bottomhalf_init] succeeds: the three lines are free and granted,
    both button lines map to interrupts, the two interrupts differ, are
    free and their registration is granted. *)
Definition load_ok (hw : platform) (w : world) : Prop :=
  let irq0 := gpio_to_irq_rc hw (gpio (buttons !!! 0%fin)) in
  let irq1 := gpio_to_irq_rc hw (gpio (buttons !!! 1%fin)) in
  (gpio (leds !!! 0%fin) ∉ gpio_requested w) ∧
  (gpio (buttons !!! 0%fin) ∉ gpio_requested w) ∧
  (gpio (buttons !!! 1%fin) ∉ gpio_requested w) ∧
  gpio_request_rc hw (gpio (leds !!! 0%fin)) = 0 ∧
  gpio_request_rc hw (gpio (buttons !!! 0%fin)) = 0 ∧
  gpio_request_rc hw (gpio (buttons !!! 1%fin)) = 0 ∧
  0 ≤ irq0 ∧ 0 ≤ irq1 ∧ irq0 ≠ irq1 ∧
  irq_actions w !! irq0 = None ∧ irq_actions w !! irq1 = None ∧
  request_irq_rc hw irq0 = 0 ∧ request_irq_rc hw irq1 = 0.

(** Two worlds that differ at most in the calls recorded. *)
Definition same_resources (w w' : world) : Prop :=
  gpio_requested w' = gpio_requested w ∧
  gpio_direction w' = gpio_direction w ∧
  gpio_level w' = gpio_level w ∧
  irq_actions w' = irq_actions w ∧
  work_pending w' = work_pending w ∧
  button_irqs w' = button_irqs w.


(** * Proofs *)

(** ** Symbolic execution of the calls *)

Lemma truthy_b2z (b : bool) : truthy (Z.b2z b) = b.
Proof. by destruct b. Qed.

Lemma new_events_app (w w' : world) (evs : list event) :
  trace w' = trace w ++ evs → new_events w w' = evs.
Proof. intros H. unfold new_events. rewrite H. apply drop_app_length. Qed.

Lemma button_isr_run (irq : Z) (w : world) :
  button_isr irq w =
  (IRQ_HANDLED,
   {| gpio_requested := gpio_requested w; gpio_direction := gpio_direction w;
      gpio_level := if isr_on irq w then <[led := true]> (gpio_level w)
                    else if isr_off irq w then <[led := false]> (gpio_level w)
                    else gpio_level w;
      irq_actions := irq_actions w; work_pending := true;
      button_irqs := button_irqs w;
      trace := trace w ++ isr_events irq w |}).
Proof.
  destruct w as [rq dir lvl acts pend irqs tr].
  cbv beta iota zeta delta
    [button_isr bind and_then get_button_irq gpio_get_value gpio_set_value
     schedule_work emit step pure isr_events isr_on isr_off level_of
     set_trace set_gpio_level set_work_pending
     gpio_requested gpio_direction gpio_level irq_actions work_pending
     button_irqs trace].
  change led with 4. change (gpio (leds !!! 0%fin)) with 4.
  change (truthy 1) with true; change (truthy 0) with false.
  repeat (cbv beta iota; rewrite ?truthy_b2z; cbn [negb andb app];
          match goal with |- context [if ?c then _ else _] => destruct c end).
  all: cbv beta iota; rewrite <- ?app_assoc; reflexivity.
Qed.

Lemma button_isr_events (irq : Z) (w : world) :
  new_events w (button_isr irq w).2 = isr_events irq w.
Proof. apply new_events_app. by rewrite button_isr_run. Qed.

Lemma button_isr_level (irq : Z) (w : world) :
  level_of (button_isr irq w).2 led =
  if isr_on irq w then true else if isr_off irq w then false else level_of w led.
Proof.
  rewrite button_isr_run. unfold level_of. cbn [snd gpio_level].
  destruct (isr_on irq w), (isr_off irq w); by rewrite ?lookup_insert_eq.
Qed.

(** ** The interrupt handler *)

(** C2: the handler called with token [irq] while the LED reads [v]:
    - [irq] is the on-button token and [v] is inactive: one write, of
      active, and the LED reads active afterwards;
    - else [irq] is the off-button token and [v] is active: one write,
      of inactive, and the LED reads inactive afterwards;
    - otherwise no line is written and the line levels are unchanged. *)
Theorem button_isr_led_update (irq : Z) (w : world) :
  let w' := (button_isr irq w).2 in
  let writes := gpio_writes (new_events w w') in
  if (irq =? button_irqs w !!! 0%fin) && negb (led_active w)
  then writes = [EvGpioSet led 1] ∧ led_active w' = true
  else if (irq =? button_irqs w !!! 1%fin) && led_active w
  then writes = [EvGpioSet led 0] ∧ led_active w' = false
  else writes = [] ∧ gpio_level w' = gpio_level w.
Proof.
  cbv zeta. unfold led_active.
  rewrite button_isr_events, button_isr_level.
  rewrite button_isr_run. cbn [snd gpio_level].
  unfold isr_events, isr_off, isr_on.
  destruct (irq =? button_irqs w !!! 0%fin),
    (irq =? button_irqs w !!! 1%fin), (level_of w led); cbn; done.
Qed.

(** C5: whatever the token and whether or not the LED changed, one run
    of the handler submits the work unit exactly once (leaving it
    pending) and returns [IRQ_HANDLED], never [IRQ_NONE]. *)
Theorem button_isr_submits_once (irq : Z) (w : world) :
  let r := button_isr irq w in
  r.1 = IRQ_HANDLED ∧ r.1 ≠ IRQ_NONE ∧
  submissions (new_events w r.2) = 1%nat ∧
  work_pending r.2 = true.
Proof.
  cbv zeta. rewrite button_isr_events.
  rewrite button_isr_run. cbn [fst snd work_pending].
  repeat split; [done|].
  unfold submissions, isr_events, isr_off, isr_on.
  destruct (irq =? button_irqs w !!! 0%fin),
    (irq =? button_irqs w !!! 1%fin), (level_of w led); reflexivity.
Qed.

(** C7: no call of the handler may sleep, block or allocate: it only
    reads and writes the LED line and submits the work unit.  The delay
    is in the work function, between its two log lines. *)
Theorem button_isr_never_blocks :
  (∀ (irq : Z) (w : world),
     forallb (λ e, negb (may_block e)) (new_events w (button_isr irq w).2) = true ∧
     Forall (λ e, e = EvGpioGet led ∨ (∃ v, e = EvGpioSet led v) ∨ e = EvScheduleWork)
            (new_events w (button_isr irq w).2)) ∧
  (∀ w : world,
     new_events w (bottomhalf_work_fn w).2 =
       [EvPrintk "Bottom half workqueue starts\n"; EvMsleep 500;
        EvPrintk "Bottom half workqueue ends\n"]) ∧
  may_block (EvMsleep 500) = true.
Proof.
  split; [|split; [|done]].
  - intros irq w. rewrite button_isr_events.
    unfold isr_events, isr_off, isr_on.
    destruct (irq =? button_irqs w !!! 0%fin),
      (irq =? button_irqs w !!! 1%fin), (level_of w led);
      (split; [reflexivity|]); cbn [negb andb app];
      repeat first [apply Forall_nil_2 | apply Forall_cons_2; [eauto|]].
  - intros w. apply new_events_app.
    destruct w as [rq dir lvl acts pend irqs tr].
    cbn. by rewrite <- !app_assoc.
Qed.

(** C10, as the claim reads for a token equal to both stored tokens,
    fails: with both cells at the initial -1 and the LED active, the
    handler called with -1 fails the first guard (the LED is not
    inactive), passes the second and writes inactive. *)
Lemma shared_token_takes_off_branch :
  (button_irqs boot_led_high !!! 0%fin = -1 ∧
   button_irqs boot_led_high !!! 1%fin = -1 ∧
   led_active boot_led_high = true ∧
   new_events boot_led_high (button_isr (-1) boot_led_high).2 =
     [EvGpioGet led; EvGpioGet led; EvGpioSet led 0; EvScheduleWork] ∧
   led_active (button_isr (-1) boot_led_high).2 = false) ∧
  ¬ off_never_taken_on_shared_token.
Proof.
  assert (new_events boot_led_high (button_isr (-1) boot_led_high).2 =
          [EvGpioGet led; EvGpioGet led; EvGpioSet led 0; EvScheduleWork]) as Hev
    by (vm_compute; reflexivity).
  split.
  - repeat split; try done; vm_compute; reflexivity.
  - intros Hclaim. apply (Hclaim (-1) boot_led_high); [done | done |].
    rewrite Hev. set_solver.
Qed.

(** C10, amended: one run of the handler writes a line at most once;
    when the token equals both stored tokens exactly one branch is
    taken, chosen by the LED: the on branch if it is inactive, the off
    branch if it is active, so the LED is toggled. *)
Theorem button_isr_single_write (irq : Z) (w : world) :
  let w' := (button_isr irq w).2 in
  (length (gpio_writes (new_events w w')) ≤ 1)%nat ∧
  (irq = button_irqs w !!! 0%fin → irq = button_irqs w !!! 1%fin →
   gpio_writes (new_events w w') =
     [EvGpioSet led (if led_active w then 0 else 1)] ∧
   led_active w' = negb (led_active w)).
Proof.
  cbv zeta. unfold led_active.
  rewrite button_isr_events, button_isr_level.
  unfold isr_events, isr_off, isr_on. split.
  - destruct (irq =? button_irqs w !!! 0%fin),
      (irq =? button_irqs w !!! 1%fin), (level_of w led); cbn; lia.
  - intros H0 H1. rewrite <- H0, <- H1, Z.eqb_refl.
    destruct (level_of w led); cbn; auto.
Qed.

Lemma button_isr_single_write_witness :
  (-1 = button_irqs boot !!! 0%fin ∧ -1 = button_irqs boot !!! 1%fin) ∧
  let w' := (button_isr (-1) boot).2 in
  (length (gpio_writes (new_events boot w')) ≤ 1)%nat ∧
  gpio_writes (new_events boot w') = [EvGpioSet led 1] ∧
  led_active w' = true.
Proof.
  split; [split; reflexivity|].
  destruct (button_isr_single_write (-1) boot) as [Hle Hshared].
  split; [exact Hle | apply Hshared; reflexivity].
Defined.

(** ** The LED state machine *)

Lemma fire_run (e : button_event) (w : world) :
  fire e w = button_isr (button_irqs w !!! binding e) w.
Proof. reflexivity. Qed.

Lemma fire_button_irqs (e : button_event) (w : world) :
  button_irqs (fire e w).2 = button_irqs w.
Proof. by rewrite fire_run, button_isr_run. Qed.

(** With distinct tokens, an on event leaves the LED active and an off
    event leaves it inactive, whatever it was. *)
Lemma fire_level (e : button_event) (w : world) :
  button_irqs w !!! 0%fin ≠ button_irqs w !!! 1%fin →
  led_active (fire e w).2 = match e with ON => true | OFF => false end.
Proof.
  intros Hne. unfold led_active.
  rewrite fire_run, button_isr_level. unfold isr_off, isr_on.
  destruct e; cbn [binding]; rewrite Z.eqb_refl.
  - destruct (level_of w led); cbn [negb andb]; [|done].
    destruct (_ =? _) eqn:E; [|done]. by apply Z.eqb_eq in E.
  - destruct (_ =? _) eqn:E; [by apply Z.eqb_eq in E|].
    cbn [negb andb]. by destruct (level_of w led).
Qed.

(** An event that asks for the state the LED already has writes
    nothing. *)
Lemma fire_self_loop (e : button_event) (w : world) :
  button_irqs w !!! 0%fin ≠ button_irqs w !!! 1%fin →
  led_active w = match e with ON => true | OFF => false end →
  gpio_writes (new_events w (fire e w).2) = [] ∧
  gpio_level (fire e w).2 = gpio_level w.
Proof.
  intros Hne Hlvl. unfold led_active in Hlvl.
  rewrite fire_run, button_isr_events, button_isr_run.
  cbn [snd gpio_level]. unfold isr_events, isr_off, isr_on. rewrite Hlvl.
  destruct e; cbn [binding]; rewrite Z.eqb_refl.
  - destruct (_ =? _) eqn:E; [by apply Z.eqb_eq in E|]. done.
  - destruct (_ =? _) eqn:E; [|done]. by apply Z.eqb_eq in E.
Qed.

Lemma run_events_level (evs : list button_event) (w : world) :
  button_irqs w !!! 0%fin ≠ button_irqs w !!! 1%fin →
  led_active (run_events evs w) =
  match last (effective_events evs w) with
  | Some ON => true
  | Some OFF => false
  | None => led_active w
  end.
Proof.
  revert w. induction evs as [|e evs IH]; intros w Hne; [done|].
  cbn [run_events effective_events].
  rewrite IH by (by rewrite fire_button_irqs).
  rewrite last_app.
  destruct (last (effective_events evs (fire e w).2)) as [e'|]; [done|].
  rewrite (fire_level e w Hne).
  case_bool_decide as Hch; cbn [last].
  - exact Hch.
  - by destruct e.
Qed.

(** C3: with distinct tokens for the two bindings and the LED inactive
    at the start, after any sequence of on and off events the LED is
    active if the last event that changed it was on, and inactive
    otherwise (no event changed it, or the last that did was off).
    From any state, (inactive, on) leads to active, (active, off) to
    inactive, and the two other pairs write nothing and leave the line
    levels as they are. *)
Theorem led_tracks_last_effective_event (evs : list button_event) (w : world) :
  button_irqs w !!! 0%fin ≠ button_irqs w !!! 1%fin →
  led_active w = false →
  led_active (run_events evs w) =
    (if last (effective_events evs w) is Some ON then true else false) ∧
  ∀ (v : world) (e : button_event),
    button_irqs v = button_irqs w →
    let v' := (fire e v).2 in
    match led_active v, e with
    | false, ON => led_active v' = true
    | true, OFF => led_active v' = false
    | _, _ => gpio_writes (new_events v v') = [] ∧ gpio_level v' = gpio_level v
    end.
Proof.
  intros Hne Hoff. split.
  - rewrite run_events_level, Hoff by done.
    by destruct (last (effective_events evs w)) as [[]|].
  - intros v e Hv. cbv zeta.
    assert (button_irqs v !!! 0%fin ≠ button_irqs v !!! 1%fin) as Hne'
      by (by rewrite Hv).
    pose proof (fire_level e v Hne') as Hlvl.
    destruct (led_active v) eqn:Ev, e; try done.
    + apply fire_self_loop; [done|]. by rewrite Ev.
    + apply fire_self_loop; [done|]. by rewrite Ev.
Qed.

(** At the world left by a successful load on the fault-free platform,
    in the array variant. *)
Lemma led_tracks_last_effective_event_witness :
  let w := (bottomhalf_init hw_ok false boot).2 in
  button_irqs w !!! 0%fin ≠ button_irqs w !!! 1%fin ∧
  led_active w = false ∧
  led_active (run_events [ON; ON; OFF; OFF; ON] w) =
    (if last (effective_events [ON; ON; OFF; OFF; ON] w) is Some ON
     then true else false).
Proof.
  cbv zeta.
  assert (button_irqs (bottomhalf_init hw_ok false boot).2 !!! 0%fin ≠
          button_irqs (bottomhalf_init hw_ok false boot).2 !!! 1%fin) as Hne
    by (vm_compute; discriminate).
  assert (led_active (bottomhalf_init hw_ok false boot).2 = false) as Hoff
    by (vm_compute; reflexivity).
  split; [exact Hne|]. split; [exact Hoff|].
  exact (proj1 (led_tracks_last_effective_event [ON; ON; OFF; OFF; ON]
                  (bottomhalf_init hw_ok false boot).2 Hne Hoff)).
Defined.

(** ** Loading and unloading *)

Ltac simp_calls H :=
  first
    [ progress cbv beta iota in H
    | progress cbn [negb] in H
    | progress change (0 =? 0) with true in H
    | progress change (- EBUSY =? 0) with false in H
    | progress change (Z.land GPIOF_OUT_INIT_LOW GPIOF_DIR_IN =? 0)
        with true in H
    | progress change (Z.land GPIOF_OUT_INIT_LOW GPIOF_INIT_HIGH =? 0)
        with true in H
    | progress change (Z.land GPIOF_IN GPIOF_DIR_IN =? 0) with false in H ].

(** Runs the calls of [H : m w = r], one case per answer of the
    platform. *)
Ltac run_calls H :=
  repeat first
    [ simp_calls H
    | match type of H with
      | context [if negb ?c then _ else _] =>
          lazymatch goal with
          | E : c = _ |- _ => rewrite E in H
          | _ => destruct c eqn:?
          end
      | context [if ?c then _ else _] =>
          lazymatch goal with
          | E : c = _ |- _ => rewrite E in H
          | _ => destruct c eqn:?
          end
      end ].

Ltac z_facts :=
  repeat match goal with
    | H : decide _ = _ |- _ => clear H
    | H : (_ =? _) = false |- _ => apply Z.eqb_neq in H
    | H : (_ =? _) = true |- _ => apply Z.eqb_eq in H
    | H : (_ <? _) = false |- _ => apply Z.ltb_ge in H
    | H : (_ <? _) = true |- _ => apply Z.ltb_lt in H
    end.

Ltac unfold_calls H :=
  cbv beta iota zeta delta
      [bottomhalf_init bottomhalf_init_irqs fail1 fail2 fail3 fail4
       bottomhalf_exit for_each gpio_set_value
       gpio_request_array gpio_request_array_from gpio_request_one
       gpio_free_array gpio_direction_input gpio_direction_output
       gpio_request gpio_free gpio_get_value gpio_to_irq request_irq free_irq
       pr_info pr_err get_button_irq put_button_irq truthy
       bind emit step pure
       set_trace set_gpio_level set_work_pending set_gpio_requested
       set_irq_actions set_button_irqs set_gpio_direction
       gpio_requested gpio_direction gpio_level irq_actions work_pending
       button_irqs trace] in H;
  change (gpio (leds !!! 0%fin)) with 4 in H;
  change (gpio (buttons !!! 0%fin)) with 17 in H;
  change (gpio (buttons !!! 1%fin)) with 18 in H;
  change (ARRAY_SIZE leds) with 1%nat in H;
  change (ARRAY_SIZE buttons) with 2%nat in H;
  change (vec_to_list leds) with
    [ {| gpio := 4; flags := GPIOF_OUT_INIT_LOW; label := "LED 1" |} ] in H;
  change (vec_to_list buttons) with
    [ {| gpio := 17; flags := GPIOF_IN; label := "LED 1 ON BUTTON" |};
      {| gpio := 18; flags := GPIOF_IN; label := "LED 1 OFF BUTTON" |} ] in H;
  cbv beta iota delta [gpio flags label length] in H.

(** What a successful load did: the three lines were free and are now
    held, both buttons map to distinct, free interrupts, which are now
    registered on both edges and stored in [button_irqs]; the array
    variant also configured the LED as an output driven low. *)
Lemma bottomhalf_init_ok (hw : platform) (nra : bool) (w0 w1 : world) :
  bottomhalf_init hw nra w0 = (0, w1) →
  let irq0 := gpio_to_irq_rc hw 17 in
  let irq1 := gpio_to_irq_rc hw 18 in
  ((4 ∉ gpio_requested w0) ∧ (17 ∉ gpio_requested w0) ∧
   (18 ∉ gpio_requested w0)) ∧
  (irq_actions w0 !! irq0 = None ∧ irq_actions w0 !! irq1 = None ∧
   irq0 ≠ irq1) ∧
  gpio_requested w1 = {[18]} ∪ ({[17]} ∪ ({[4]} ∪ gpio_requested w0)) ∧
  irq_actions w1 =
    <[irq1 := {| ia_flags := both_edges; ia_name := "gpiomod#button2" |}]>
      (<[irq0 := {| ia_flags := both_edges; ia_name := "gpiomod#button1" |}]>
         (irq_actions w0)) ∧
  button_irqs w1 = [# irq0; irq1] ∧
  gpio_level w1 =
    (if nra then gpio_level w0 else <[4 := false]> (gpio_level w0)) ∧
  gpio_direction w1 !! 4 =
    (if nra then gpio_direction w0 !! 4 else Some DIR_OUT).
Proof.
  destruct w0 as [rq dir lvl acts pend irqs tr].
  inv_vec irqs; intros a b H irq0 irq1.
  unfold_calls H.
  destruct nra.
  all: run_calls H.
  all: apply pair_equal_spec in H as [Hret Hw]; z_facts;
    try (exfalso; unfold EBUSY in *; lia).
  all: subst w1; cbn.
  all: assert (irq0 ≠ irq1) as Hne
    by (intros Heq; apply n3; subst irq0 irq1;
        rewrite Heq, lookup_insert_eq; eauto).
  all: rewrite lookup_insert_ne in n3 by done.
  all: apply eq_None_not_Some in n2, n3.
  all: repeat split; try done; try set_solver.
  rewrite !lookup_insert_ne by done. apply lookup_insert_eq.
Qed.

(** A successful load leaves distinct tokens in [button_irqs], so the
    LED follows the events from then on. *)
Lemma led_tracks_after_load
    (hw : platform) (nra : bool) (w0 w1 : world) (evs : list button_event) :
  bottomhalf_init hw nra w0 = (0, w1) →
  led_active (run_events evs w1) =
  match last (effective_events evs w1) with
  | Some ON => true
  | Some OFF => false
  | None => led_active w1
  end.
Proof.
  intros Hinit. apply run_events_level.
  destruct (bottomhalf_init_ok hw nra w0 w1 Hinit)
    as (_ & (_ & _ & Hne) & _ & _ & Hirqs & _).
  by rewrite Hirqs.
Qed.

(** Unloading, in both variants: the same calls in the same order. *)
Lemma bottomhalf_exit_run (nra : bool) (w : world) :
  bottomhalf_exit nra w =
  (tt,
   {| gpio_requested := gpio_requested w ∖ {[4]} ∖ {[17]} ∖ {[18]};
      gpio_direction := gpio_direction w;
      gpio_level := <[4 := false]> (gpio_level w);
      irq_actions :=
        delete (button_irqs w !!! 1%fin)
          (delete (button_irqs w !!! 0%fin) (irq_actions w));
      work_pending := work_pending w;
      button_irqs := button_irqs w;
      trace := trace w ++
        [EvPrintk "%s\n";
         EvFreeIrq (button_irqs w !!! 0%fin);
         EvFreeIrq (button_irqs w !!! 1%fin);
         EvGpioSet 4 0; EvGpioFree 4; EvGpioFree 17; EvGpioFree 18] |}).
Proof.
  destruct (bottomhalf_exit nra w) as [u w'] eqn:H.
  destruct w as [rq dir lvl acts pend irqs tr].
  unfold_calls H.
  destruct nra; run_calls H; rewrite <- H, <- !app_assoc; reflexivity.
Qed.

(** Handling interrupts changes neither the tokens, nor the
    registrations, nor the lines held. *)
Lemma run_isr_frame (irqs : list Z) (w : world) :
  button_irqs (run_isr irqs w) = button_irqs w ∧
  irq_actions (run_isr irqs w) = irq_actions w ∧
  gpio_requested (run_isr irqs w) = gpio_requested w.
Proof.
  revert w. induction irqs as [|irq irqs IH]; intros w; [done|].
  cbn [run_isr]. destruct (IH (button_isr irq w).2) as (-> & -> & ->).
  by rewrite button_isr_run.
Qed.

(** C4: unloading after a successful load, whatever interrupts were
    handled in between: both interrupts are released first, then the
    LED is written inactive, then the three lines are released;
    afterwards the LED reads inactive, neither binding is registered
    (the registrations are those from before the load) and the lines
    held are those from before the load. *)
Theorem bottomhalf_exit_after_init
    (hw : platform) (nra : bool) (w0 w1 : world) (irqs : list Z) :
  bottomhalf_init hw nra w0 = (0, w1) →
  let w2 := run_isr irqs w1 in
  let w3 := (bottomhalf_exit nra w2).2 in
  new_events w2 w3 =
    [EvPrintk "%s\n";
     EvFreeIrq (button_irqs w1 !!! 0%fin);
     EvFreeIrq (button_irqs w1 !!! 1%fin);
     EvGpioSet led 0;
     EvGpioFree led;
     EvGpioFree (gpio (buttons !!! 0%fin));
     EvGpioFree (gpio (buttons !!! 1%fin))] ∧
  led_active w3 = false ∧
  irq_actions w3 !! (button_irqs w1 !!! 0%fin) = None ∧
  irq_actions w3 !! (button_irqs w1 !!! 1%fin) = None ∧
  irq_actions w3 = irq_actions w0 ∧
  gpio_requested w3 = gpio_requested w0.
Proof.
  intros Hinit. cbv zeta.
  destruct (bottomhalf_init_ok hw nra w0 w1 Hinit)
    as ((H4 & H17 & H18) & (Hf0 & Hf1 & Hne) & Hreq & Hacts & Hirqs & _).
  destruct (run_isr_frame irqs w1) as (Hi2 & Ha2 & Hr2).
  remember (run_isr irqs w1) as w2 eqn:Hw2. clear Hw2.
  rewrite bottomhalf_exit_run. cbn [snd].
  assert (button_irqs w1 !!! 0%fin = gpio_to_irq_rc hw 17) as E0
    by (by rewrite Hirqs).
  assert (button_irqs w1 !!! 1%fin = gpio_to_irq_rc hw 18) as E1
    by (by rewrite Hirqs).
  rewrite Hi2, E0, E1.
  assert (delete (gpio_to_irq_rc hw 18)
            (delete (gpio_to_irq_rc hw 17) (irq_actions w2)) =
          irq_actions w0) as Hdel.
  { rewrite Ha2, Hacts.
    rewrite delete_insert_ne by done.
    rewrite delete_insert_eq.
    rewrite delete_insert_eq.
    rewrite (delete_id _ _ Hf0). by apply delete_id. }
  split; [|split; [|split; [|split; [|split]]]].
  - by apply new_events_app.
  - unfold led_active, level_of. cbn [gpio_level].
    change led with 4. by rewrite lookup_insert_eq.
  - cbn [irq_actions]. rewrite Hdel. exact Hf0.
  - cbn [irq_actions]. rewrite Hdel. exact Hf1.
  - exact Hdel.
  - cbn [gpio_requested]. rewrite Hr2, Hreq.
    apply set_eq. intros x.
    rewrite !elem_of_difference, !elem_of_union, !elem_of_singleton.
    split; [tauto|]. intros Hx.
    repeat split; [tauto | | | ]; intros ->; tauto.
Qed.

Lemma bottomhalf_exit_after_init_witness :
  let w1 := (bottomhalf_init hw_ok false boot).2 in
  let w2 := run_isr [177; 177; 178] w1 in
  let w3 := (bottomhalf_exit false w2).2 in
  bottomhalf_init hw_ok false boot = (0, w1) ∧
  new_events w2 w3 =
    [EvPrintk "%s\n"; EvFreeIrq 177; EvFreeIrq 178; EvGpioSet 4 0;
     EvGpioFree 4; EvGpioFree 17; EvGpioFree 18] ∧
  led_active w3 = false ∧
  irq_actions w3 = ∅ ∧
  gpio_requested w3 = ∅.
Proof.
  cbv zeta.
  assert (bottomhalf_init hw_ok false boot =
          (0, (bottomhalf_init hw_ok false boot).2)) as Hinit
    by (vm_compute; reflexivity).
  split; [exact Hinit|].
  destruct (bottomhalf_exit_after_init hw_ok false boot _ [177; 177; 178] Hinit)
    as (Hev & Hled & _ & _ & Hacts & Hreq).
  repeat split; assumption.
Defined.

(** C9: after a successful load each button's interrupt, the one its
    line maps to, is registered with both the rising and the falling
    trigger flag. *)
Theorem init_registers_both_edges
    (hw : platform) (nra : bool) (w0 w1 : world) :
  bottomhalf_init hw nra w0 = (0, w1) →
  ∀ i : fin 2,
    button_irqs w1 !!! i = gpio_to_irq_rc hw (gpio (buttons !!! i)) ∧
    ∃ a : irqaction,
      irq_actions w1 !! (button_irqs w1 !!! i) = Some a ∧
      ia_flags a = Z.lor IRQF_TRIGGER_RISING IRQF_TRIGGER_FALLING ∧
      Z.land (ia_flags a) IRQF_TRIGGER_RISING = IRQF_TRIGGER_RISING ∧
      Z.land (ia_flags a) IRQF_TRIGGER_FALLING = IRQF_TRIGGER_FALLING.
Proof.
  intros Hinit i.
  destruct (bottomhalf_init_ok hw nra w0 w1 Hinit)
    as (_ & (_ & _ & Hne) & _ & Hacts & Hirqs & _).
  rewrite Hacts, Hirqs.
  inv_fin i; [|intros i; inv_fin i; [|intros i; inv_fin i]].
  - split; [reflexivity|].
    change ([# gpio_to_irq_rc hw 17; gpio_to_irq_rc hw 18] !!! 0%fin)
      with (gpio_to_irq_rc hw 17).
    eexists. split.
    { rewrite lookup_insert_ne by done. apply lookup_insert_eq. }
    repeat split; reflexivity.
  - split; [reflexivity|].
    eexists. split; [apply lookup_insert_eq|].
    repeat split; reflexivity.
Qed.

Lemma init_registers_both_edges_witness :
  let w1 := (bottomhalf_init hw_ok true boot).2 in
  bottomhalf_init hw_ok true boot = (0, w1) ∧
  ∀ i : fin 2,
    button_irqs w1 !!! i = gpio_to_irq_rc hw_ok (gpio (buttons !!! i)) ∧
    ∃ a : irqaction,
      irq_actions w1 !! (button_irqs w1 !!! i) = Some a ∧
      ia_flags a = Z.lor IRQF_TRIGGER_RISING IRQF_TRIGGER_FALLING ∧
      Z.land (ia_flags a) IRQF_TRIGGER_RISING = IRQF_TRIGGER_RISING ∧
      Z.land (ia_flags a) IRQF_TRIGGER_FALLING = IRQF_TRIGGER_FALLING.
Proof.
  cbv zeta.
  assert (bottomhalf_init hw_ok true boot =
          (0, (bottomhalf_init hw_ok true boot).2)) as Hinit
    by (vm_compute; reflexivity).
  split; [exact Hinit|].
  exact (init_registers_both_edges hw_ok true boot _ Hinit).
Defined.

(** ** Failures while loading *)

(** Without the array calls, on any platform and from any world: a
    failed load holds the lines it held before, and the registrations
    are those from before, unless the failure is the mapping of the
    second button: then the registration of the first button is still
    there. *)
Lemma bottomhalf_init_rollback (hw : platform) (w0 w1 : world) (rc : Z) :
  bottomhalf_init hw true w0 = (rc, w1) → rc ≠ 0 →
  gpio_requested w1 = gpio_requested w0 ∧
  (irq_actions w1 = irq_actions w0 ∨
   (rc = gpio_to_irq_rc hw 18 ∧
    irq_actions w1 =
      <[gpio_to_irq_rc hw 17 :=
          {| ia_flags := both_edges; ia_name := "gpiomod#button1" |}]>
        (irq_actions w0))).
Proof.
  destruct w0 as [rq dir lvl acts pend irqs tr].
  inv_vec irqs; intros a b H Hrc.
  unfold_calls H.
  run_calls H.
  all: apply pair_equal_spec in H as [Hret Hw]; z_facts; subst rc w1;
    try done; cbn.
  all: split;
    [first [reflexivity | set_unfold; intros x; intuition (subst; tauto)]|].
  all: try (left; reflexivity).
  all: try (right; split; reflexivity).
  all: left; rewrite delete_insert_eq; apply delete_id;
    by apply eq_None_not_Some.
Qed.

(** What each failing step leaves behind, from the boot world: the
    status, the lines still held, the interrupts still registered
    (step 0: nothing fails). *)
Lemma rollback_table_no_gpio_request_array :
  map (λ k, leftover (bottomhalf_init (hw_fail k) true boot)) (seq 0 8) =
  [ (0, [17; 18; 4], [177; 178]);
    (- EINVAL, [], []); (- EINVAL, [], []); (- EINVAL, [], []);
    (- ENXIO, [], []); (- EINVAL, [], []);
    (- ENXIO, [], [177]);
    (- EINVAL, [], []) ].
Proof. vm_compute. reflexivity. Qed.

Lemma rollback_table_gpio_request_array :
  map (λ k, leftover (bottomhalf_init (hw_fail k) false boot)) (seq 0 8) =
  [ (0, [17; 18; 4], [177; 178]);
    (- EINVAL, [], []); (- EINVAL, [], []); (- EINVAL, [], []);
    (- ENXIO, [18], []); (- EINVAL, [18], []);
    (- ENXIO, [18], [177]);
    (- EINVAL, [18], []) ].
Proof. vm_compute. reflexivity. Qed.

(** C1, at the failing input: the mapping of button line 18 to its
    interrupt fails after the handler was registered for button line
    17.  The load returns the error of the mapping, but jumps to a
    label below the release of the first interrupt: interrupt 177
    stays registered, in both variants, and the array variant also
    keeps line 18 (it releases [ARRAY_SIZE(leds)] buttons).  When the
    next step fails instead, the first interrupt is released. *)
Theorem init_second_mapping_failure_leaks :
  let r := bottomhalf_init (hw_fail 6) true boot in
  let r' := bottomhalf_init (hw_fail 6) false boot in
  (r.1 = - ENXIO ∧
   new_events boot r.2 =
     [EvPrintk "%s\n"; EvGpioRequest 4; EvGpioRequest 17; EvGpioRequest 18;
      EvGpioGet 17; EvPrintk "Current button1 value: %d\n"; EvGpioToIrq 17;
      EvPrintk "Successfully requested BUTTON1 IRQ # %d\n";
      EvRequestIrq 177 both_edges; EvGpioToIrq 18;
      EvPrintk "Unable to request IRQ: %d\n";
      EvGpioFree 18; EvGpioFree 17; EvGpioFree 4] ∧
   irq_actions r.2 !! 177 =
     Some {| ia_flags := both_edges; ia_name := "gpiomod#button1" |} ∧
   elements (gpio_requested r.2) = []) ∧
  (r'.1 = - ENXIO ∧
   irq_actions r'.2 !! 177 =
     Some {| ia_flags := both_edges; ia_name := "gpiomod#button1" |} ∧
   elements (gpio_requested r'.2) = [18]) ∧
  leftover (bottomhalf_init (hw_fail 7) true boot) = (- EINVAL, [], []).
Proof. vm_compute. repeat split; reflexivity. Qed.

(** C6, at the same failing input: line 17 is released while the
    interrupt mapped from it, 177, is registered, and the interrupt is
    never released.  On the other paths (the failure of the last step
    without the array calls, and unloading) the interrupt goes first. *)
Theorem line_released_under_live_irq :
  let r := bottomhalf_init (hw_fail 6) true boot in
  let r' := bottomhalf_init (hw_fail 6) false boot in
  gpio_to_irq_rc (hw_fail 6) 17 = 177 ∧
  (irq_freed_before_line 177 17 (new_events boot r.2) = false ∧
   is_Some (irq_actions r.2 !! 177) ∧ 17 ∉ gpio_requested r.2) ∧
  (irq_freed_before_line 177 17 (new_events boot r'.2) = false ∧
   is_Some (irq_actions r'.2 !! 177) ∧ 17 ∉ gpio_requested r'.2) ∧
  irq_freed_before_line 177 17
    (new_events boot (bottomhalf_init (hw_fail 7) true boot).2) = true ∧
  (let w1 := (bottomhalf_init hw_ok true boot).2 in
   irq_freed_before_line 177 17 (new_events w1 (bottomhalf_exit true w1).2)
   = true).
Proof.
  cbv zeta.
  assert (∀ w : world, elements (gpio_requested w) = [] → 17 ∉ gpio_requested w)
    as Hnone.
  { intros w Hw Hin. apply elem_of_elements in Hin. rewrite Hw in Hin.
    by apply elem_of_nil in Hin. }
  assert (∀ w : world, elements (gpio_requested w) = [18] → 17 ∉ gpio_requested w)
    as Hone.
  { intros w Hw Hin. apply elem_of_elements in Hin. rewrite Hw in Hin.
    apply list_elem_of_singleton in Hin. discriminate. }
  split; [reflexivity|].
  split; [|split; [|split]].
  - split; [vm_compute; reflexivity|]. split.
    + vm_compute. eauto.
    + apply Hnone. vm_compute. reflexivity.
  - split; [vm_compute; reflexivity|]. split.
    + vm_compute. eauto.
    + apply Hone. vm_compute. reflexivity.
  - vm_compute. reflexivity.
  - vm_compute. reflexivity.
Qed.

(** The array variant configures the LED when it acquires it. *)
Lemma init_array_configures_led (hw : platform) (w0 w1 : world) :
  bottomhalf_init hw false w0 = (0, w1) →
  gpio_direction w1 !! led = Some DIR_OUT ∧ led_active w1 = false.
Proof.
  intros Hinit.
  destruct (bottomhalf_init_ok hw false w0 w1 Hinit)
    as (_ & _ & _ & _ & _ & Hlvl & Hdir).
  split; [exact Hdir|].
  unfold led_active, level_of. rewrite Hlvl.
  change led with 4. by rewrite lookup_insert_eq.
Qed.

(** The variant without the array calls passes only the number and the
    label of the LED line: its direction and its level stay as they
    were. *)
Lemma init_no_array_leaves_led (hw : platform) (w0 w1 : world) :
  bottomhalf_init hw true w0 = (0, w1) →
  gpio_direction w1 !! led = gpio_direction w0 !! led ∧
  led_active w1 = led_active w0.
Proof.
  intros Hinit.
  destruct (bottomhalf_init_ok hw true w0 w1 Hinit)
    as (_ & _ & _ & _ & _ & Hlvl & Hdir).
  split; [exact Hdir|].
  unfold led_active, level_of. by rewrite Hlvl.
Qed.

(** C8, at the failing input: built without the array calls, a load on
    which every call succeeds holds line 4 but never configures it; a
    line that was high and had no direction is still high and without
    direction, so the LED starts active.  The array variant, from the
    same world, makes it an output driven low. *)
Theorem led_not_configured_without_request_array :
  let r := bottomhalf_init hw_ok true boot_led_high in
  let r' := bottomhalf_init hw_ok false boot_led_high in
  (r.1 = 0 ∧ elements (gpio_requested r.2) = [17; 18; 4] ∧
   List.filter (λ e, if e is EvGpioDirection _ _ then true else false)
     (new_events boot_led_high r.2) = [] ∧
   gpio_direction r.2 !! led = None ∧ led_active r.2 = true) ∧
  (r'.1 = 0 ∧ gpio_direction r'.2 !! led = Some DIR_OUT ∧
   led_active r'.2 = false).
Proof. vm_compute. repeat split; reflexivity. Qed.

(** * Further properties of the module *)

(** ** Every outcome of a load *)

Ltac clash :=
  exfalso;
  repeat match goal with
    | H : is_Some (<[_ := _]> _ !! _) |- _ =>
        rewrite lookup_insert_ne in H by done
    | H : is_Some (?m !! ?i), H' : ?m !! ?i = None |- _ =>
        rewrite H' in H; by apply is_Some_None in H
    | H : ¬ is_Some (<[?i := _]> _ !! ?i) |- _ =>
        apply H; rewrite lookup_insert_eq; eauto
    end;
  first [ lia | congruence | set_unfold; intuition lia ].

(** One symbolic run of [bottomhalf_init], both variants, every answer
    of the platform: when it succeeds, what a failure leaves behind,
    and what a failure of the first acquisition does. *)
Lemma bottomhalf_init_cases
    (hw : platform) (nra : bool) (w0 w1 : world) (rc : Z) :
  bottomhalf_init hw nra w0 = (rc, w1) →
  (rc = 0 ↔ load_ok hw w0) ∧
  (rc ≠ 0 → ∀ g : Z, g ≠ 18 ∨ nra = true →
     (g ∈ gpio_requested w1 ↔ g ∈ gpio_requested w0)) ∧
  (4 ∈ gpio_requested w0 → rc = - EBUSY ∧ same_resources w0 w1) ∧
  ((4 ∉ gpio_requested w0) → gpio_request_rc hw 4 ≠ 0 →
     rc = gpio_request_rc hw 4 ∧ same_resources w0 w1) ∧
  (rc ≠ 0 →
     irq_actions w1 = irq_actions w0 ∨
     (rc = gpio_to_irq_rc hw 18 ∧
      irq_actions w1 =
        <[gpio_to_irq_rc hw 17 :=
            {| ia_flags := both_edges; ia_name := "gpiomod#button1" |}]>
          (irq_actions w0))).
Proof.
  unfold load_ok, same_resources.
  change (gpio (leds !!! 0%fin)) with 4.
  change (gpio (buttons !!! 0%fin)) with 17.
  change (gpio (buttons !!! 1%fin)) with 18.
  destruct w0 as [rq dir lvl acts pend irqs tr].
  inv_vec irqs; intros a b H.
  unfold_calls H.
  destruct nra.
  all: run_calls H.
  all: apply pair_equal_spec in H as [Hret Hw]; z_facts; subst rc w1; cbn.
  all: unfold EBUSY in *.
  all: repeat match goal with
         | H : context [vinsert 0 ?x ?v !!! 0%fin] |- _ =>
             change (vinsert 0 x v !!! 0%fin) with x in H
         | H : context [vinsert 1 ?y ?v !!! 1%fin] |- _ =>
             change (vinsert 1 y v !!! 1%fin) with y in H
         end.
  all: split;
    [split;
     [intros ?; try lia; repeat split; try done; try (set_unfold; intuition lia);
      try (by apply eq_None_not_Some);
      try (intros Heq; apply n3; rewrite Heq, lookup_insert_eq; eauto);
      try (apply eq_None_not_Some; intros Hs; apply n3;
           destruct (decide (gpio_to_irq_rc hw 17 = gpio_to_irq_rc hw 18))
             as [Heq|Hne];
           [rewrite Heq, lookup_insert_eq; eauto
           |by rewrite lookup_insert_ne])
     |intros (?&?&?&?&?&?&?&?&?&?&?&?&?); try reflexivity; try clash]|].
  all: try (split; [|split; [|split]]).
  all: try (intros Hrc g [Hg|Hg]; try done; set_unfold;
            intuition (subst; first [lia | tauto | done])).
  all: try (intros Hin; first [clash | repeat split; reflexivity]).
  all: try (intros Hn Hne; first [clash | repeat split; reflexivity]).
  all: intros Hrc; try done.
  all: try (left; reflexivity).
  all: try (right; split; reflexivity).
  all: left; rewrite delete_insert_eq; apply delete_id;
    by apply eq_None_not_Some.
Qed.

Lemma bottomhalf_init_eta (hw : platform) (nra : bool) (w : world) :
  bottomhalf_init hw nra w =
  ((bottomhalf_init hw nra w).1, (bottomhalf_init hw nra w).2).
Proof. by destruct (bottomhalf_init hw nra w). Qed.




(** X3: after a failed load, in either variant, every line other than
    line 18 is held exactly if it was held before (without the array
    calls, line 18 too), and the registrations are those from before,
    or those plus the first button's when the status is that of the
    second button's mapping. *)
Theorem failed_load_leftover
    (hw : platform) (nra : bool) (w0 w1 : world) (rc : Z) :
  bottomhalf_init hw nra w0 = (rc, w1) → rc ≠ 0 →
  (∀ g : Z, g ≠ gpio (buttons !!! 1%fin) ∨ nra = true →
     (g ∈ gpio_requested w1 ↔ g ∈ gpio_requested w0)) ∧
  (irq_actions w1 = irq_actions w0 ∨
   (rc = gpio_to_irq_rc hw (gpio (buttons !!! 1%fin)) ∧
    irq_actions w1 =
      <[gpio_to_irq_rc hw (gpio (buttons !!! 0%fin)) :=
          {| ia_flags := both_edges; ia_name := "gpiomod#button1" |}]>
        (irq_actions w0))).
Proof.
  intros Hinit Hrc.
  destruct (bottomhalf_init_cases hw nra w0 w1 rc Hinit)
    as (_ & Hheld & _ & _ & Hacts).
  split; [exact (Hheld Hrc) | exact (Hacts Hrc)].
Qed.

Lemma failed_load_leftover_witness :
  let r := bottomhalf_init (hw_fail 5) false boot in
  r.1 = - EINVAL ∧
  (∀ g : Z, g ≠ 18 ∨ false = true →
     (g ∈ gpio_requested r.2 ↔ g ∈ gpio_requested boot)) ∧
  (irq_actions r.2 = irq_actions boot ∨
   (r.1 = gpio_to_irq_rc (hw_fail 5) 18 ∧
    irq_actions r.2 =
      <[gpio_to_irq_rc (hw_fail 5) 17 :=
          {| ia_flags := both_edges; ia_name := "gpiomod#button1" |}]>
        (irq_actions boot))).
Proof.
  cbv zeta.
  assert ((bottomhalf_init (hw_fail 5) false boot).1 = - EINVAL) as Hrc
    by (vm_compute; reflexivity).
  split; [exact Hrc|].
  apply (failed_load_leftover (hw_fail 5) false boot _ _
           (bottomhalf_init_eta (hw_fail 5) false boot)).
  rewrite Hrc. discriminate.
Defined.

(** X4: when the LED line cannot be acquired (it is held already, or
    the provider refuses it) the load returns that status, -EBUSY for a
    held line, which is not 0, and leaves every line, registration,
    level and token as it was. *)
Theorem led_acquisition_failure (hw : platform) (nra : bool) (w0 : world) :
  led ∈ gpio_requested w0 ∨ gpio_request_rc hw led ≠ 0 →
  let r := bottomhalf_init hw nra w0 in
  r.1 = (if decide (led ∈ gpio_requested w0) then - EBUSY
         else gpio_request_rc hw led) ∧
  r.1 ≠ 0 ∧
  same_resources w0 r.2.
Proof.
  intros Hfail. cbv zeta. change led with 4 in *.
  destruct (bottomhalf_init_cases hw nra w0 _ _
              (bottomhalf_init_eta hw nra w0))
    as (_ & _ & Hbusy & Hrefused & _).
  destruct (decide (4 ∈ gpio_requested w0)) as [Hin|Hout].
  - destruct (Hbusy Hin) as [-> Hsame]. done.
  - destruct Hfail as [Hin|Hrc]; [done|].
    destruct (Hrefused Hout Hrc) as [-> Hsame]. done.
Qed.

Lemma led_acquisition_failure_witness :
  let r := bottomhalf_init (hw_fail 1) true boot in
  gpio_request_rc (hw_fail 1) led ≠ 0 ∧
  r.1 = - EINVAL ∧ r.1 ≠ 0 ∧ same_resources boot r.2.
Proof.
  cbv zeta.
  assert (gpio_request_rc (hw_fail 1) led ≠ 0) as Hrc
    by (vm_compute; discriminate).
  split; [exact Hrc|].
  exact (led_acquisition_failure (hw_fail 1) true boot (or_intror Hrc)).
Defined.

(** ** Loading twice, unloading, loading again *)

(** After a successful load and any interrupts, unloading gives back
    the lines and the registrations of the world before the load. *)
Lemma unload_restores
    (hw : platform) (nra : bool) (w0 w1 : world) (irqs : list Z) :
  bottomhalf_init hw nra w0 = (0, w1) →
  let w3 := (bottomhalf_exit nra (run_isr irqs w1)).2 in
  gpio_requested w3 = gpio_requested w0 ∧ irq_actions w3 = irq_actions w0.
Proof.
  intros Hinit. cbv zeta.
  destruct (bottomhalf_init_ok hw nra w0 w1 Hinit)
    as ((H4 & H17 & H18) & (Hf0 & Hf1 & Hne) & Hreq & Hacts & Hirqs & _).
  destruct (run_isr_frame irqs w1) as (Hi2 & Ha2 & Hr2).
  rewrite bottomhalf_exit_run. cbn [snd gpio_requested irq_actions].
  rewrite Hi2, Ha2, Hr2, Hirqs, Hacts, Hreq. split.
  - set_unfold. intros x. intuition (subst; first [lia | tauto | done]).
  - change ([# gpio_to_irq_rc hw 17; gpio_to_irq_rc hw 18] !!! 0%fin)
      with (gpio_to_irq_rc hw 17).
    change ([# gpio_to_irq_rc hw 17; gpio_to_irq_rc hw 18] !!! 1%fin)
      with (gpio_to_irq_rc hw 18).
    rewrite delete_insert_ne by done.
    rewrite !delete_insert_eq.
    rewrite (delete_id _ _ Hf0). by apply delete_id.
Qed.

(** X5: a second load without an unload in between is refused with
    -EBUSY at the LED line, and takes nothing from the first load: the
    lines held, the registrations, the levels and the tokens stay. *)
Theorem second_load_is_refused
    (hw : platform) (nra : bool) (w0 w1 : world) (irqs : list Z) :
  bottomhalf_init hw nra w0 = (0, w1) →
  let w2 := run_isr irqs w1 in
  let r := bottomhalf_init hw nra w2 in
  r.1 = - EBUSY ∧ same_resources w2 r.2.
Proof.
  intros Hinit. cbv zeta.
  destruct (bottomhalf_init_ok hw nra w0 w1 Hinit)
    as (_ & _ & Hreq & _).
  destruct (run_isr_frame irqs w1) as (_ & _ & Hr2).
  destruct (bottomhalf_init_cases hw nra (run_isr irqs w1) _ _
              (bottomhalf_init_eta hw nra (run_isr irqs w1)))
    as (_ & _ & Hbusy & _).
  apply Hbusy. rewrite Hr2, Hreq. set_unfold. tauto.
Qed.

Lemma second_load_is_refused_witness :
  let w1 := (bottomhalf_init hw_ok true boot).2 in
  let w2 := run_isr [177; 178] w1 in
  let r := bottomhalf_init hw_ok true w2 in
  bottomhalf_init hw_ok true boot = (0, w1) ∧
  r.1 = - EBUSY ∧ same_resources w2 r.2.
Proof.
  cbv zeta.
  assert (bottomhalf_init hw_ok true boot =
          (0, (bottomhalf_init hw_ok true boot).2)) as Hinit
    by (vm_compute; reflexivity).
  split; [exact Hinit|].
  exact (second_load_is_refused hw_ok true boot _ [177; 178] Hinit).
Defined.

(** X6: after a successful load, any interrupts and an unload, the
    module loads again on the same platform. *)
Theorem reload_after_unload
    (hw : platform) (nra : bool) (w0 w1 : world) (irqs : list Z) :
  bottomhalf_init hw nra w0 = (0, w1) →
  let w3 := (bottomhalf_exit nra (run_isr irqs w1)).2 in
  (bottomhalf_init hw nra w3).1 = 0.
Proof.
  intros Hinit. cbv zeta.
  destruct (unload_restores hw nra w0 w1 irqs Hinit) as (Hreq & Hacts).
  destruct (bottomhalf_init_cases hw nra w0 _ _ Hinit) as (Hok0 & _).
  destruct (bottomhalf_init_cases hw nra _ _ _
              (bottomhalf_init_eta hw nra
                 (bottomhalf_exit nra (run_isr irqs w1)).2)) as (Hok3 & _).
  apply Hok3. unfold load_ok in *. rewrite Hreq, Hacts. by apply Hok0.
Qed.

Lemma reload_after_unload_witness :
  let w1 := (bottomhalf_init hw_ok false boot).2 in
  let w3 := (bottomhalf_exit false (run_isr [177; 5; 178] w1)).2 in
  bottomhalf_init hw_ok false boot = (0, w1) ∧
  (bottomhalf_init hw_ok false w3).1 = 0.
Proof.
  cbv zeta.
  assert (bottomhalf_init hw_ok false boot =
          (0, (bottomhalf_init hw_ok false boot).2)) as Hinit
    by (vm_compute; reflexivity).
  split; [exact Hinit|].
  exact (reload_after_unload hw_ok false boot _ [177; 5; 178] Hinit).
Defined.

(** ** Unloading from any world *)

(** X7: both variants of the unload make the same calls and leave the
    same world. *)
Theorem bottomhalf_exit_variants_agree (w : world) :
  bottomhalf_exit true w = bottomhalf_exit false w.
Proof. by rewrite !bottomhalf_exit_run. Qed.

(** X8: the unload releases without checking what was acquired.  From
    any world, loaded or not: afterwards none of the three lines is
    held and neither stored token is registered, the LED reads
    inactive, every other line is held exactly if it was and every
    other registration is as it was; the tokens are kept. *)
Theorem bottomhalf_exit_anywhere (nra : bool) (w : world) :
  let w' := (bottomhalf_exit nra w).2 in
  ((led ∉ gpio_requested w') ∧
   (gpio (buttons !!! 0%fin) ∉ gpio_requested w') ∧
   (gpio (buttons !!! 1%fin) ∉ gpio_requested w')) ∧
  (∀ g : Z, g ≠ led → g ≠ gpio (buttons !!! 0%fin) →
     g ≠ gpio (buttons !!! 1%fin) →
     (g ∈ gpio_requested w' ↔ g ∈ gpio_requested w)) ∧
  (irq_actions w' !! (button_irqs w !!! 0%fin) = None ∧
   irq_actions w' !! (button_irqs w !!! 1%fin) = None) ∧
  (∀ i : Z, i ≠ button_irqs w !!! 0%fin → i ≠ button_irqs w !!! 1%fin →
     irq_actions w' !! i = irq_actions w !! i) ∧
  led_active w' = false ∧
  button_irqs w' = button_irqs w.
Proof.
  cbv zeta. rewrite bottomhalf_exit_run.
  cbn [snd gpio_requested irq_actions button_irqs].
  change led with 4.
  change (gpio (buttons !!! 0%fin)) with 17.
  change (gpio (buttons !!! 1%fin)) with 18.
  split; [|split; [|split; [|split; [|split]]]].
  - set_unfold. intuition lia.
  - intros g H4 H17 H18. set_unfold. tauto.
  - split.
    + destruct (decide (button_irqs w !!! 0%fin = button_irqs w !!! 1%fin))
        as [->|Hne]; [apply lookup_delete_eq|].
      rewrite lookup_delete_ne by done. apply lookup_delete_eq.
    + apply lookup_delete_eq.
  - intros i H0 H1. by rewrite !lookup_delete_ne.
  - unfold led_active, level_of. cbn [gpio_level].
    by rewrite lookup_insert_eq.
  - reflexivity.
Qed.

Lemma bottomhalf_exit_anywhere_witness :
  let w' := (bottomhalf_exit true boot).2 in
  new_events boot w' =
    [EvPrintk "%s\n"; EvFreeIrq (-1); EvFreeIrq (-1); EvGpioSet 4 0;
     EvGpioFree 4; EvGpioFree 17; EvGpioFree 18] ∧
  irq_actions w' !! (button_irqs boot !!! 0%fin) = None ∧
  led_active w' = false.
Proof.
  cbv zeta. split; [vm_compute; reflexivity|].
  destruct (bottomhalf_exit_anywhere true boot) as (_ & _ & (H0 & _) & _ & Hled & _).
  split; [exact H0 | exact Hled].
Defined.

(** ** More on the interrupt handler *)

(** X9: the handler touches nothing but the LED: the lines held, their
    directions, the registrations and the tokens are unchanged, and so
    is the level of every line other than the LED line. *)
Theorem button_isr_frame (irq : Z) (w : world) :
  let w' := (button_isr irq w).2 in
  gpio_requested w' = gpio_requested w ∧
  gpio_direction w' = gpio_direction w ∧
  irq_actions w' = irq_actions w ∧
  button_irqs w' = button_irqs w ∧
  ∀ g : Z, g ≠ led → gpio_level w' !! g = gpio_level w !! g.
Proof.
  cbv zeta. rewrite button_isr_run.
  cbn [snd gpio_requested gpio_direction irq_actions button_irqs gpio_level].
  repeat split. intros g Hg.
  destruct (isr_on irq w), (isr_off irq w); by rewrite ?lookup_insert_ne.
Qed.

(** X10: with distinct tokens, a second run of the handler with the
    same token, as for the press and the release of one button, writes
    no line and leaves the levels as the first run left them. *)
Theorem button_isr_repeat (irq : Z) (w : world) :
  button_irqs w !!! 0%fin ≠ button_irqs w !!! 1%fin →
  let w1 := (button_isr irq w).2 in
  let w2 := (button_isr irq w1).2 in
  gpio_writes (new_events w1 w2) = [] ∧ gpio_level w2 = gpio_level w1.
Proof.
  intros Hne. cbv zeta.
  rewrite button_isr_events.
  rewrite (button_isr_run irq (button_isr irq w).2). cbn [snd gpio_level].
  pose proof (button_isr_level irq w) as Hlvl.
  assert (button_irqs (button_isr irq w).2 = button_irqs w) as Hirqs
    by (by rewrite button_isr_run).
  unfold isr_events, isr_off, isr_on in *.
  rewrite Hirqs, Hlvl.
  destruct (irq =? button_irqs w !!! 0%fin) eqn:E0,
    (irq =? button_irqs w !!! 1%fin) eqn:E1, (level_of w led);
    cbn; try done.
  all: apply Z.eqb_eq in E0, E1; congruence.
Qed.

Lemma button_isr_repeat_witness :
  let w := (bottomhalf_init hw_ok true boot).2 in
  let w1 := (button_isr 177 w).2 in
  let w2 := (button_isr 177 w1).2 in
  button_irqs w !!! 0%fin ≠ button_irqs w !!! 1%fin ∧
  gpio_writes (new_events w1 w2) = [] ∧ gpio_level w2 = gpio_level w1.
Proof.
  cbv zeta.
  assert (button_irqs (bottomhalf_init hw_ok true boot).2 !!! 0%fin ≠
          button_irqs (bottomhalf_init hw_ok true boot).2 !!! 1%fin) as Hne
    by (vm_compute; discriminate).
  split; [exact Hne|].
  exact (button_isr_repeat 177 (bottomhalf_init hw_ok true boot).2 Hne).
Defined.

Lemma new_events_trans (w w1 w2 : world) (evs : list event) :
  trace w1 = trace w ++ evs →
  (∃ evs', trace w2 = trace w1 ++ evs') →
  new_events w w2 = evs ++ new_events w1 w2.
Proof.
  intros H1 [evs' H2].
  rewrite (new_events_app w1 w2 evs' H2).
  apply new_events_app. by rewrite H2, H1, <- app_assoc.
Qed.

Lemma run_isr_trace (irqs : list Z) (w : world) :
  ∃ evs, trace (run_isr irqs w) = trace w ++ evs.
Proof.
  revert w. induction irqs as [|irq irqs IH]; intros w.
  - exists []. by rewrite app_nil_r.
  - destruct (IH (button_isr irq w).2) as [evs Hevs].
    exists (isr_events irq w ++ evs). cbn [run_isr].
    rewrite Hevs, button_isr_run. cbn [snd trace]. by rewrite app_assoc.
Qed.

Lemma run_isr_events (irq : Z) (irqs : list Z) (w : world) :
  new_events w (run_isr (irq :: irqs) w) =
  isr_events irq w ++ new_events (button_isr irq w).2 (run_isr irqs (button_isr irq w).2).
Proof.
  cbn [run_isr]. apply new_events_trans; [|apply run_isr_trace].
  by rewrite button_isr_run.
Qed.

(** X11: a sequence of runs of the handler, whatever the tokens,
    submits the work unit once per run and writes a line at most once
    per run; after at least one run the work unit is pending. *)
Theorem run_isr_submissions (irqs : list Z) (w : world) :
  let evs := new_events w (run_isr irqs w) in
  submissions evs = length irqs ∧
  (length (gpio_writes evs) ≤ length irqs)%nat ∧
  (irqs ≠ [] → work_pending (run_isr irqs w) = true).
Proof.
  cbv zeta. revert w. induction irqs as [|irq irqs IH]; intros w.
  - cbn [run_isr]. rewrite (new_events_app w w []) by (by rewrite app_nil_r).
    done.
  - destruct (IH (button_isr irq w).2) as (IHs & IHw & IHp).
    rewrite run_isr_events.
    unfold submissions, gpio_writes in *.
    rewrite !List.filter_app, !length_app, IHs. cbn [length].
    assert (length (List.filter is_schedule (isr_events irq w)) = 1%nat
            ∧ (length (List.filter is_gpio_write (isr_events irq w)) ≤ 1)%nat)
      as [Hs Hw].
    { unfold isr_events, isr_off, isr_on.
      destruct (irq =? button_irqs w !!! 0%fin),
        (irq =? button_irqs w !!! 1%fin), (level_of w led); cbn; lia. }
    split; [lia|]. split; [lia|]. intros _. cbn [run_isr].
    destruct irqs as [|irq' irqs].
    + cbn [run_isr]. by rewrite button_isr_run.
    + by apply IHp.
Qed.

(** X12: with distinct tokens the LED shows the last event of any
    sequence: active after on, inactive after off, unchanged by the
    empty sequence. *)
Theorem led_follows_last_event (evs : list button_event) (w : world) :
  button_irqs w !!! 0%fin ≠ button_irqs w !!! 1%fin →
  led_active (run_events evs w) =
  match last evs with
  | Some ON => true
  | Some OFF => false
  | None => led_active w
  end.
Proof.
  revert w. induction evs as [|e evs IH]; intros w Hne; [done|].
  cbn [run_events]. rewrite IH by (by rewrite fire_button_irqs).
  rewrite last_cons. destruct (last evs) as [e'|]; [done|].
  by rewrite fire_level.
Qed.

Lemma led_follows_last_event_witness :
  let w := (bottomhalf_init hw_ok true boot).2 in
  button_irqs w !!! 0%fin ≠ button_irqs w !!! 1%fin ∧
  led_active (run_events [OFF; ON; ON; OFF] w) = false ∧
  led_active (run_events [OFF; OFF; ON] w) = true.
Proof.
  cbv zeta.
  assert (button_irqs (bottomhalf_init hw_ok true boot).2 !!! 0%fin ≠
          button_irqs (bottomhalf_init hw_ok true boot).2 !!! 1%fin) as Hne
    by (vm_compute; discriminate).
  split; [exact Hne|]. split.
  - exact (led_follows_last_event [OFF; ON; ON; OFF] _ Hne).
  - exact (led_follows_last_event [OFF; OFF; ON] _ Hne).
Defined.

(** ** The calls of a successful load *)

(** X13: a successful load makes its calls in one order: the LED line,
    the two button lines (each configured right after its request in
    the array variant), a read of the first button, then for each
    button in turn the mapping of its line and the registration of the
    mapped interrupt on both edges; it releases nothing. *)
Theorem load_call_sequence (hw : platform) (nra : bool) (w0 w1 : world) :
  bottomhalf_init hw nra w0 = (0, w1) →
  let configured (line : Z) (d : gpio_dir) :=
    if nra then [] else [EvGpioDirection line d] in
  new_events w0 w1 =
    [EvPrintk "%s\n"; EvGpioRequest led] ++ configured led DIR_OUT ++
    [EvGpioRequest (gpio (buttons !!! 0%fin))] ++
    configured (gpio (buttons !!! 0%fin)) DIR_IN ++
    [EvGpioRequest (gpio (buttons !!! 1%fin))] ++
    configured (gpio (buttons !!! 1%fin)) DIR_IN ++
    [EvGpioGet (gpio (buttons !!! 0%fin));
     EvPrintk "Current button1 value: %d\n";
     EvGpioToIrq (gpio (buttons !!! 0%fin));
     EvPrintk "Successfully requested BUTTON1 IRQ # %d\n";
     EvRequestIrq (gpio_to_irq_rc hw (gpio (buttons !!! 0%fin))) both_edges;
     EvGpioToIrq (gpio (buttons !!! 1%fin));
     EvPrintk "Successfully requested BUTTON2 IRQ # %d\n";
     EvRequestIrq (gpio_to_irq_rc hw (gpio (buttons !!! 1%fin))) both_edges].
Proof.
  change led with 4.
  change (gpio (buttons !!! 0%fin)) with 17.
  change (gpio (buttons !!! 1%fin)) with 18.
  destruct w0 as [rq dir lvl acts pend irqs tr].
  inv_vec irqs; intros a b H. cbv zeta.
  unfold_calls H.
  destruct nra.
  all: run_calls H.
  all: apply pair_equal_spec in H as [Hret Hw]; z_facts;
    try (exfalso; unfold EBUSY in *; lia).
  all: subst w1; apply new_events_app; cbn [trace app];
    rewrite <- !app_assoc; reflexivity.
Qed.

Lemma load_call_sequence_witness :
  let w1 := (bottomhalf_init hw_ok true boot).2 in
  bottomhalf_init hw_ok true boot = (0, w1) ∧
  new_events boot w1 =
    [EvPrintk "%s\n"; EvGpioRequest 4; EvGpioRequest 17; EvGpioRequest 18;
     EvGpioGet 17; EvPrintk "Current button1 value: %d\n"; EvGpioToIrq 17;
     EvPrintk "Successfully requested BUTTON1 IRQ # %d\n";
     EvRequestIrq 177 both_edges; EvGpioToIrq 18;
     EvPrintk "Successfully requested BUTTON2 IRQ # %d\n";
     EvRequestIrq 178 both_edges].
Proof.
  cbv zeta.
  assert (bottomhalf_init hw_ok true boot =
          (0, (bottomhalf_init hw_ok true boot).2)) as Hinit
    by (vm_compute; reflexivity).
  split; [exact Hinit|].
  exact (load_call_sequence hw_ok true boot _ Hinit).
Defined.
